(** * The DStudio Python template: [src/app.py] and [tests/test_app.py]

    The program is a seventeen-line Flask application: one application
    object built at module load, one route [/] whose view returns a constant
    string, and a guarded call to the development server.  Everything it
    does goes through the Flask framework, which the module imports.  The
    development therefore has three layers:

    - [Flask]: the fragment of Flask and Werkzeug that [app.py] and the test
      drive (construction, [route], [config], request dispatch, the default
      error responses, [run], [test_client]), as explicit state passing over
      a process state.  Flask and Werkzeug are libraries the program depends
      on, not files of the repository; the definitions follow the libraries'
      own functions, named in the comments;
    - [App]: the module body of [app.py], statement by statement, and the
      import machinery that executes it;
    - [Tests]: the fixture and the test of [test_app.py].

    A request is what the framework routes: [method] is the request method
    as [Request.method] gives it (upper case), [path] the path the URL map
    matches against.  What an HTTP server does before that (percent
    decoding, merging of slashes) is not part of the model. *)

From Stdlib Require Import ZArith String Ascii List Bool Lia.
From stdpp Require Import base gmap sets list strings.

Local Open Scope Z_scope.
Local Open Scope string_scope.

(** ** Data *)

(** Values the program stores in [app.config]. *)
Inductive config_value :=
  | CfgNone
  | CfgBool (b : bool)
  | CfgStr (s : string).

#[global] Instance config_value_eq_dec : EqDecision config_value.
Proof. solve_decision. Defined.

(** Python function objects that can be registered as views.  [app.py]
    defines one function, [hello]; Flask contributes its static-file view. *)
Inductive pyfunc :=
  | fn_hello
  | fn_send_static_file.

#[global] Instance pyfunc_eq_dec : EqDecision pyfunc.
Proof. solve_decision. Defined.

(** A rule of the URL map: either a fixed path, or a prefix followed by a
    [<path:filename>] converter (one or more characters, the first of which
    is not a slash). *)
Inductive pattern :=
  | PFixed (p : string)
  | PPath (prefix : string).

Record Rule := {
  rule : pattern;
  endpoint : string;
  methods : gset string;
  provide_automatic_options : bool
}.

Record Request := {
  method : string;
  path : string;
  query_string : string;
  req_headers : list (string * string);
  req_body : string
}.

Record Response := {
  status_code : Z;
  data : string;
  content_type : string;
  allow : gset string
}.

(** What a view function may return. *)
Inductive return_value :=
  | RvStr (s : string)
  | RvResponse (r : Response).

Inductive exn :=
  | AssertionError (msg : string)
  | ReferenceError
  | KeyError (key : string)
  | TypeError
  | NotFound
  | MethodNotAllowed (valid_methods : gset string)
  | InternalServerError.

(** A [Flask] object. *)
Record FlaskObj := {
  import_name : string;
  config : gmap string config_value;
  url_map : list Rule;
  view_functions : gmap string pyfunc;
  error_handler_spec : gmap Z pyfunc
}.

(** Objects are referred to by their index in the heap. *)
Definition loc := nat.

(** The namespace of the loaded module [app.py]. *)
Record ModuleNS := {
  g_name : string;
  g_app : loc;
  g_hello : pyfunc
}.

(** The process: the Flask objects constructed so far, the modules loaded so
    far, the development servers started, the stack of request contexts the
    framework has pushed, and the files of the application's static folder
    (for each file name, the response Flask builds from the file). *)
Record World := {
  heap : list FlaskObj;
  sys_modules : gmap string ModuleNS;
  served : list (loc * string * Z);
  request_ctx : list Request;
  static_folder : gmap string Response
}.

#[global] Instance pattern_eq_dec : EqDecision pattern.
Proof. solve_decision. Defined.
#[global] Instance Rule_eq_dec : EqDecision Rule.
Proof. solve_decision. Defined.
#[global] Instance Request_eq_dec : EqDecision Request.
Proof. solve_decision. Defined.
#[global] Instance Response_eq_dec : EqDecision Response.
Proof. solve_decision. Defined.
#[global] Instance FlaskObj_eq_dec : EqDecision FlaskObj.
Proof. solve_decision. Defined.
#[global] Instance ModuleNS_eq_dec : EqDecision ModuleNS.
Proof. solve_decision. Defined.
#[global] Instance World_eq_dec : EqDecision World.
Proof. solve_decision. Defined.

(** A process that has just started: nothing constructed, loaded or served. *)
Definition fresh_world (files : gmap string Response) : World :=
  {| heap := []; sys_modules := ∅; served := []; request_ctx := [];
     static_folder := files |}.

(** ** A state and exception monad

    Python statements change the process and may raise; a raise keeps the
    changes made so far. *)
Inductive result (A : Type) :=
  | Ok (a : A)
  | Raise (e : exn).
Arguments Ok {A} a.
Arguments Raise {A} e.

Definition M (A : Type) : Type := World → result A * World.

Definition ret {A} (a : A) : M A := λ w, (Ok a, w).
Definition raise {A} (e : exn) : M A := λ w, (Raise e, w).
Definition bind {A B} (m : M A) (k : A → M B) : M B :=
  λ w, match m w with
       | (Ok a, w') => k a w'
       | (Raise e, w') => (Raise e, w')
       end.
Definition get_world : M World := λ w, (Ok w, w).
Definition modify_world (f : World → World) : M unit := λ w, (Ok tt, f w).

(** [try: m  except Exception as e: h e] *)
Definition try_except {A} (m : M A) (h : exn → M A) : M A :=
  λ w, match m w with
       | (Ok a, w') => (Ok a, w')
       | (Raise e, w') => h e w'
       end.

(** [try: m  finally: f] *)
Definition try_finally {A} (m : M A) (f : M unit) : M A :=
  λ w, match m w with
       | (r, w') => match f w' with
                    | (Ok _, w'') => (r, w'')
                    | (Raise e, w'') => (Raise e, w'')
                    end
       end.

#[global] Instance M_ret : MRet M := @ret.
#[global] Instance M_bind : MBind M := λ A B k m, bind m k.

Definition set_heap (h : list FlaskObj) (w : World) : World :=
  {| heap := h; sys_modules := sys_modules w; served := served w;
     request_ctx := request_ctx w; static_folder := static_folder w |}.
Definition set_sys_modules (m : gmap string ModuleNS) (w : World) : World :=
  {| heap := heap w; sys_modules := m; served := served w;
     request_ctx := request_ctx w; static_folder := static_folder w |}.
Definition set_served (s : list (loc * string * Z)) (w : World) : World :=
  {| heap := heap w; sys_modules := sys_modules w; served := s;
     request_ctx := request_ctx w; static_folder := static_folder w |}.
Definition set_request_ctx (c : list Request) (w : World) : World :=
  {| heap := heap w; sys_modules := sys_modules w; served := served w;
     request_ctx := c; static_folder := static_folder w |}.

(** Dereference an application object. *)
Definition get_app (l : loc) : M FlaskObj :=
  λ w, match heap w !! l with
       | Some a => (Ok a, w)
       | None => (Raise ReferenceError, w)
       end.

(** Mutate an application object in place. *)
Definition update_app (l : loc) (f : FlaskObj → FlaskObj) : M unit :=
  a ← get_app l; modify_world (λ w, set_heap (<[l := f a]> (heap w)) w).

(** ** Strings *)

Definition upper_ascii (c : ascii) : ascii :=
  let n := nat_of_ascii c in
  if (97 <=? n)%nat && (n <=? 122)%nat then ascii_of_nat (n - 32) else c.

(** [str.upper] on ASCII text. *)
Fixpoint upper (s : string) : string :=
  match s with
  | EmptyString => EmptyString
  | String c s' => String (upper_ascii c) (upper s')
  end.

(** [s[n:]] *)
Fixpoint drop_string (n : nat) (s : string) : string :=
  match n, s with
  | O, _ => s
  | S n', String _ s' => drop_string n' s'
  | S _, EmptyString => EmptyString
  end.

(** [needle in hay] *)
Fixpoint contains (needle hay : string) : bool :=
  String.prefix needle hay ||
  match hay with
  | EmptyString => false
  | String _ hay' => contains needle hay'
  end.

(** ** The framework: the part of Flask and Werkzeug the program drives *)
Module Flask.

(** Part of [Flask.default_config]. *)
Definition default_config : gmap string config_value :=
  list_to_map
    [("DEBUG", CfgNone); ("TESTING", CfgBool false);
     ("PROPAGATE_EXCEPTIONS", CfgNone); ("SECRET_KEY", CfgNone);
     ("SERVER_NAME", CfgNone); ("APPLICATION_ROOT", CfgStr "/");
     ("PREFERRED_URL_SCHEME", CfgStr "http")].

(** [Response.default_mimetype] of Flask's response class. *)
Definition default_mimetype : string := "text/html".

(** [werkzeug.utils.get_content_type], for the text types. *)
Definition get_content_type (mimetype charset : string) : string :=
  if String.prefix "text/" mimetype
  then mimetype +:+ "; charset=" +:+ charset
  else mimetype.

(** [Response(body, status)]: the response class applied to a body. *)
Definition make_str_response (body : string) (status : Z) : Response :=
  {| status_code := status; data := body;
     content_type := get_content_type default_mimetype "utf-8";
     allow := ∅ |}.

(** [__name__] of a function object. *)
Definition func_name (f : pyfunc) : string :=
  match f with
  | fn_hello => "hello"
  | fn_send_static_file => "send_static_file"
  end.

(** [Rule.__init__]: method names are upper-cased and HEAD joins GET. *)
Definition make_rule (pat : pattern) (ep : string) (ms : gset string)
    (auto_options : bool) : Rule :=
  let ms := set_map upper ms : gset string in
  let ms := if bool_decide ("GET" ∈ ms) then ms ∪ {["HEAD"]} else ms in
  {| rule := pat; endpoint := ep; methods := ms;
     provide_automatic_options := auto_options |}.

(** [Flask.add_url_rule(rule, endpoint, view_func, methods=...)] with
    [provide_automatic_options] left at [None]. *)
Definition add_url_rule (l : loc) (pat : pattern) (ep : option string)
    (view_func : pyfunc) (ms : option (gset string)) : M unit :=
  let ep := default (func_name view_func) ep in
  let ms := default {["GET"]} ms in
  let ms := set_map upper ms : gset string in
  let auto_options := negb (bool_decide ("OPTIONS" ∈ ms)) in
  let required := if auto_options then {["OPTIONS"]} else ∅ in
  let r := make_rule pat ep (ms ∪ required) auto_options in
  update_app l (λ a,
    {| import_name := import_name a; config := config a;
       url_map := url_map a ++ [r];
       view_functions := view_functions a;
       error_handler_spec := error_handler_spec a |});;
  a ← get_app l;
  match view_functions a !! ep with
  | Some old =>
      if bool_decide (old = view_func) then mret tt
      else raise (AssertionError
        "View function mapping is overwriting an existing endpoint function")
  | None => mret tt
  end;;
  update_app l (λ a,
    {| import_name := import_name a; config := config a;
       url_map := url_map a;
       view_functions := <[ep := view_func]> (view_functions a);
       error_handler_spec := error_handler_spec a |}).

(** [@app.route(rule)] applied to [f]: registers and returns [f]. *)
Definition route (l : loc) (rule : string) (f : pyfunc) : M pyfunc :=
  add_url_rule l (PFixed rule) None f None;;
  mret f.

(** [Flask(import_name)]: a new object with the default configuration and
    the static route ([static_folder] defaults to ["static"]). *)
Definition Flask (name : string) : M loc :=
  w ← get_world;
  let l := length (heap w) in
  modify_world (λ w, set_heap (heap w ++
    [{| import_name := name; config := default_config; url_map := [];
        view_functions := ∅; error_handler_spec := ∅ |}]) w);;
  add_url_rule l (PPath "/static/") (Some "static") fn_send_static_file None;;
  mret l.

(** [app.config[key] = value] *)
Definition config_set (l : loc) (key : string) (v : config_value) : M unit :=
  update_app l (λ a,
    {| import_name := import_name a; config := <[key := v]> (config a);
       url_map := url_map a; view_functions := view_functions a;
       error_handler_spec := error_handler_spec a |}).

(** [app.config[key]] *)
Definition config_get (l : loc) (key : string) : M config_value :=
  a ← get_app l;
  match config a !! key with
  | Some v => mret v
  | None => raise (KeyError key)
  end.

(** [app.run(host=..., port=...)]: the development server starts listening.
    (It then serves requests until the process ends.) *)
Definition run (l : loc) (host : string) (port : Z) : M unit :=
  modify_world (λ w, set_served (served w ++ [(l, host, port)]) w).

(** *** Routing *)

(** Match one rule against a path; on success the view arguments.  This is
    Werkzeug's matching of a path that is well formed: it starts with a
    slash and has no empty segment.  On other paths Werkzeug first strips
    repeated leading slashes or answers with a redirect to the merged path;
    that is not part of this definition, and the statements about paths
    other than [/] are made for well-formed paths. *)
Definition match_pattern (pat : pattern) (p : string)
    : option (list (string * string)) :=
  match pat with
  | PFixed q => if String.eqb q p then Some [] else None
  | PPath prefix =>
      if String.prefix prefix p then
        match drop_string (String.length prefix) p with
        | EmptyString => None
        | String c rest =>
            if Ascii.eqb c "/"%char then None
            else Some [("filename", String c rest)]
        end
      else None
  end.

(** [MapAdapter.match] on a well-formed path: the first rule that matches
    path and method; a path that matches only under other methods raises
    [MethodNotAllowed] with those methods, a path that matches nothing
    raises [NotFound].  The redirects of Werkzeug (strict slashes, merged
    slashes) arise on other paths only and have no outcome here. *)
Fixpoint match_rules (rules : list Rule) (m p : string)
    (have_match_for : gset string)
    : result (Rule * list (string * string)) :=
  match rules with
  | [] =>
      if bool_decide (have_match_for = ∅) then Raise NotFound
      else Raise (MethodNotAllowed have_match_for)
  | r :: rest =>
      match match_pattern (rule r) p with
      | Some args =>
          if bool_decide (m ∈ methods r) then Ok (r, args)
          else match_rules rest m p (have_match_for ∪ methods r)
      | None => match_rules rest m p have_match_for
      end
  end.

(** [MapAdapter.allowed_methods] *)
Definition allowed_methods (rules : list Rule) (p : string) : gset string :=
  match match_rules rules "--" p ∅ with
  | Raise (MethodNotAllowed ms) => ms
  | _ => ∅
  end.

(** *** Default error responses *)

Definition is_http_exception (e : exn) : bool :=
  match e with
  | NotFound | MethodNotAllowed _ | InternalServerError => true
  | _ => false
  end.

Definition http_code (e : exn) : Z :=
  match e with
  | NotFound => 404
  | MethodNotAllowed _ => 405
  | _ => 500
  end.

Definition http_code_text (e : exn) : string :=
  match e with
  | NotFound => "404"
  | MethodNotAllowed _ => "405"
  | _ => "500"
  end.

Definition http_name (e : exn) : string :=
  match e with
  | NotFound => "Not Found"
  | MethodNotAllowed _ => "Method Not Allowed"
  | _ => "Internal Server Error"
  end.

Definition http_description (e : exn) : string :=
  match e with
  | NotFound =>
      "The requested URL was not found on the server. If you entered the URL manually please check your spelling and try again."
  | MethodNotAllowed _ => "The method is not allowed for the requested URL."
  | _ =>
      "The server encountered an internal error and was unable to complete your request. Either the server is overloaded or there is an error in the application."
  end.

Definition nl : string := String "010"%char EmptyString.

(** [HTTPException.get_response]: the page Werkzeug renders for an HTTP
    error nobody handles. *)
Definition default_error_response (e : exn) : Response :=
  {| status_code := http_code e;
     data := "<!doctype html>" +:+ nl +:+ "<html lang=en>" +:+ nl +:+
             "<title>" +:+ http_code_text e +:+ " " +:+ http_name e +:+
             "</title>" +:+ nl +:+
             "<h1>" +:+ http_name e +:+ "</h1>" +:+ nl +:+
             "<p>" +:+ http_description e +:+ "</p>" +:+ nl;
     content_type := "text/html; charset=utf-8";
     allow := match e with MethodNotAllowed ms => ms | _ => ∅ end |}.

(** [Flask.make_default_options_response] *)
Definition make_default_options_response (rules : list Rule) (p : string)
    : Response :=
  {| status_code := 200; data := EmptyString;
     content_type := get_content_type default_mimetype "utf-8";
     allow := allowed_methods rules p |}.

(** [Flask.make_response] *)
Definition make_response (rv : return_value) : Response :=
  match rv with
  | RvStr s => make_str_response s 200
  | RvResponse r => r
  end.

(** [Flask.send_static_file]: the file's response, or [NotFound].  The
    response of a file is the one to a plain request; what Flask makes of
    conditional and range headers (304, 206) is not modelled, and no
    statement is made about the answer for a file that exists. *)
Definition send_static_file (args : list (string * string)) : M return_value :=
  match args with
  | [(_, filename)] =>
      w ← get_world;
      match static_folder w !! filename with
      | Some r => mret (RvResponse r)
      | None => raise NotFound
      end
  | _ => raise (KeyError "filename")
  end.

(** *** Handling a request

    The dispatch is stated once for any interpretation [call] of function
    objects: [call f args] is the Python call of [f] with the keyword arguments
    [args]. *)
Section Dispatch.
Variable call : pyfunc → list (string * string) → M return_value.

(** Truth value of a configuration entry. *)
Definition truthy (v : config_value) : bool :=
  match v with
  | CfgNone => false
  | CfgBool b => b
  | CfgStr s => negb (String.eqb s EmptyString)
  end.

(** [RequestContext.push]: the context goes on the stack and the request
    is matched against the URL map. *)
Definition push_context (l : loc) (req : Request)
    : M (result (Rule * list (string * string))) :=
  modify_world (λ w, set_request_ctx (req :: request_ctx w) w);;
  a ← get_app l;
  mret (match_rules (url_map a) (method req) (path req) ∅).

(** [RequestContext.pop] *)
Definition pop_context : M unit :=
  modify_world (λ w, set_request_ctx (tail (request_ctx w)) w).

(** [Flask.dispatch_request] *)
Definition dispatch_request (l : loc) (req : Request)
    (routing : result (Rule * list (string * string))) : M return_value :=
  match routing with
  | Raise e => raise e
  | Ok (r, args) =>
      a ← get_app l;
      if provide_automatic_options r && String.eqb (method req) "OPTIONS"
      then mret (RvResponse
                   (make_default_options_response (url_map a) (path req)))
      else match view_functions a !! endpoint r with
           | Some f => call f args
           | None => raise (KeyError (endpoint r))
           end
  end.

(** [Flask.handle_user_exception]: an HTTP error goes to the handler the
    application registered for its code, or becomes its own response. *)
Definition handle_user_exception (l : loc) (e : exn) : M return_value :=
  if is_http_exception e then
    a ← get_app l;
    match error_handler_spec a !! http_code e with
    | Some h => call h []
    | None => mret (RvResponse (default_error_response e))
    end
  else raise e.

(** [Flask.full_dispatch_request] *)
Definition full_dispatch_request (l : loc) (req : Request)
    (routing : result (Rule * list (string * string))) : M Response :=
  rv ← try_except (dispatch_request l req routing) (handle_user_exception l);
  mret (make_response rv).

(** [Flask.handle_exception]: an exception nothing handled is re-raised
    when testing or debugging, and is a 500 response otherwise. *)
Definition handle_exception (l : loc) (e : exn) : M Response :=
  propagate ← config_get l "PROPAGATE_EXCEPTIONS";
  testing ← config_get l "TESTING";
  debug ← config_get l "DEBUG";
  let propagate :=
    match propagate with
    | CfgNone => truthy testing || truthy debug
    | v => truthy v
    end in
  if propagate then raise e
  else
    a ← get_app l;
    match error_handler_spec a !! 500 with
    | Some h => rv ← call h []; mret (make_response rv)
    | None => mret (default_error_response InternalServerError)
    end.

(** [Response.get_app_iter]: no body for HEAD and for the statuses that
    carry none. *)
Definition get_wsgi_response (req : Request) (r : Response) : Response :=
  if String.eqb (method req) "HEAD"
     || ((100 <=? status_code r)%Z && (status_code r <? 200)%Z)
     || (status_code r =? 204)%Z || (status_code r =? 304)%Z
  then {| status_code := status_code r; data := EmptyString;
          content_type := content_type r; allow := allow r |}
  else r.

(** [Flask.wsgi_app] *)
Definition wsgi_app (l : loc) (req : Request) : M Response :=
  try_finally
    (response ← try_except
       (routing ← push_context l req;
        full_dispatch_request l req routing)
       (handle_exception l);
     mret (get_wsgi_response req response))
    pop_context.

(** *** The test client *)

Record Client := { client_app : loc }.

(** [app.test_client()].  A client is known by its application only: it
    has no identity of its own and no state (Flask's client keeps, once
    entered by [with], the request context of its last request). *)
Definition test_client (l : loc) : M Client := mret {| client_app := l |}.

(** [client.open(url, method=...)] for a URL without a query string, on a
    client that was not entered by [with]: the request context is popped
    when the request is done.  The headers the client adds are left out. *)
Definition client_open (c : Client) (m url : string) : M Response :=
  wsgi_app (client_app c)
    {| method := m; path := url; query_string := EmptyString;
       req_headers := []; req_body := EmptyString |}.

(** [client.get(url)] *)
Definition client_get (c : Client) (url : string) : M Response :=
  client_open c "GET" url.
End Dispatch.

End Flask.

(** ** [src/app.py] *)
Module App.

(** [def hello(): return 'Hello from DStudio Python Implementation!'] *)
Definition hello : M return_value :=
  mret (RvStr "Hello from DStudio Python Implementation!").

(** Calling a function object with keyword arguments, given the body that
    the name [hello] stands for.  [hello] takes no parameter. *)
Definition call_with (hello_body : M return_value) (f : pyfunc)
    (args : list (string * string)) : M return_value :=
  match f with
  | fn_hello =>
      match args with
      | [] => hello_body
      | _ => raise TypeError
      end
  | fn_send_static_file => Flask.send_static_file args
  end.

Definition call : pyfunc → list (string * string) → M return_value :=
  call_with hello.

(** The module body, executed with [__name__] bound to [name]:
    [app = Flask(__name__)], the decorated definition of [hello], and the
    guarded [app.run(host='0.0.0.0', port=8080)]. *)
Definition module_body (name : string) : M ModuleNS :=
  app ← Flask.Flask name;
  hello' ← Flask.route app "/" fn_hello;
  (if String.eqb name "__main__"
   then Flask.run app "0.0.0.0" 8080
   else mret tt);;
  mret {| g_name := name; g_app := app; g_hello := hello' |}.

(** [import name]: a module already in [sys.modules] is not executed again. *)
Definition import_module (name : string) : M ModuleNS :=
  w ← get_world;
  match sys_modules w !! name with
  | Some ns => mret ns
  | None =>
      ns ← module_body name;
      modify_world (λ w, set_sys_modules (<[name := ns]> (sys_modules w)) w);;
      mret ns
  end.

(** [python app.py]: the module is executed as [__main__]. *)
Definition run_script : M ModuleNS := import_module "__main__".

(** The application serving one request. *)
Definition wsgi_app : loc → Request → M Response := Flask.wsgi_app call.

End App.

(** ** [tests/test_app.py] *)
Module Tests.

(** [from src.app import app] *)
Definition import_app : M loc :=
  ns ← App.import_module "src.app"; mret (g_app ns).

(** The fixture [client], up to its [yield]: the write to the
    configuration and the construction of the client.  Entering the client
    ([with ... as client]) changes the client only, which has no state
    here. *)
Definition client (app : loc) : M Flask.Client :=
  Flask.config_set app "TESTING" (CfgBool true);;
  Flask.test_client app.

(** [assert b] *)
Definition assert (b : bool) : M unit :=
  if b then mret tt else raise (AssertionError EmptyString).

(** [test_hello(client)] *)
Definition test_hello (c : Flask.Client) : M unit :=
  response ← Flask.client_get App.call c "/";
  assert (status_code response =? 200)%Z;;
  assert (contains "Hello from DStudio Python Implementation!" (data response)).

End Tests.

(** ** Processes

    A process loads [app.py] under one name: as [__main__] when the file is
    run as a script, after which the development server hands the requests
    it receives to the application; or as [src.app] when the test module
    imports it, after which importers, fixtures, tests and test-client
    requests follow in any order. *)

Inductive event :=
  | EvImport
  | EvFixture
  | EvTestHello
  | EvRequest (r : Request).

(** What an event shows to whoever caused it. *)
Inductive obs :=
  | ObsApp (l : loc)
  | ObsClient (c : Flask.Client)
  | ObsResponse (r : Response)
  | ObsPassed
  | ObsRaised (e : exn).

Definition observe {A} (f : A → obs) (m : M A) : World → obs * World :=
  λ w, match m w with
       | (Ok a, w') => (f a, w')
       | (Raise e, w') => (ObsRaised e, w')
       end.

(** The name [app] as the holder of the module sees it. *)
Definition the_app (name : string) : M loc :=
  ns ← App.import_module name; mret (g_app ns).

(** A request reaches the application, [hello_body] being what the name
    [hello] stands for. *)
Definition serve (hello_body : M return_value) (name : string) (r : Request)
    : World → obs * World :=
  observe ObsResponse
    (app ← the_app name; Flask.wsgi_app (App.call_with hello_body) app r).

Definition step (name : string) (ev : event) : World → obs * World :=
  match ev with
  | EvImport => observe ObsApp (the_app name)
  | EvFixture => observe ObsClient (app ← the_app name; Tests.client app)
  | EvTestHello =>
      observe (λ _, ObsPassed)
        (app ← the_app name; c ← Tests.client app; Tests.test_hello c)
  | EvRequest r => serve App.hello name r
  end.

Fixpoint run_events (name : string) (evs : list event) (w : World)
    : list obs * World :=
  match evs with
  | [] => ([], w)
  | ev :: rest =>
      let '(o, w1) := step name ev w in
      let '(os, w2) := run_events name rest w1 in
      (o :: os, w2)
  end.

Inductive process :=
  | Script (requests : list Request)
  | TestSession (events : list event).

Definition module_name (p : process) : string :=
  match p with
  | Script _ => "__main__"
  | TestSession _ => "src.app"
  end.

Definition events_of (p : process) : list event :=
  match p with
  | Script requests => map EvRequest requests
  | TestSession events => events
  end.

(** The world once the module is loaded. *)
Definition boot (name : string) (files : gmap string Response) : World :=
  snd (App.import_module name (fresh_world files)).

(** The observations and the final world of a process. *)
Definition run_process (files : gmap string Response) (p : process)
    : list obs * World :=
  run_events (module_name p) (events_of p) (boot (module_name p) files).

(** ** The shape of every reachable world

    What the module body leaves behind: one application object with two
    rules, Flask's static route and the route of [hello], both with the
    default methods. *)

Definition http_methods : gset string := {["GET"; "HEAD"; "OPTIONS"]}.

Definition static_rule : Rule :=
  {| rule := PPath "/static/"; endpoint := "static";
     methods := http_methods; provide_automatic_options := true |}.

Definition hello_rule : Rule :=
  {| rule := PFixed "/"; endpoint := "hello";
     methods := http_methods; provide_automatic_options := true |}.

(** The URL map after the module body has run. *)
Definition routes : list Rule := [static_rule; hello_rule].

(** The view functions after the module body has run. *)
Definition views : gmap string pyfunc :=
  {[ "static" := fn_send_static_file; "hello" := fn_hello ]}.

(** The namespace of the module loaded under [name]. *)
Definition the_module (name : string) : ModuleNS :=
  {| g_name := name; g_app := 0%nat; g_hello := fn_hello |}.

(** The world of a process that loaded the module under [name], the
    configuration being [cfg]. *)
Definition app_world (name : string) (cfg : gmap string config_value)
    (files : gmap string Response) : World :=
  {| heap := [ {| import_name := name; config := cfg; url_map := routes;
                  view_functions := views; error_handler_spec := ∅ |} ];
     sys_modules := {[ name := the_module name ]};
     served := if String.eqb name "__main__"
               then [(0%nat, "0.0.0.0", 8080)] else [];
     request_ctx := [];
     static_folder := files |}.

(** Which events write the configuration, and what they write. *)
Definition step_config (ev : event) (cfg : gmap string config_value)
    : gmap string config_value :=
  match ev with
  | EvFixture | EvTestHello => <["TESTING" := CfgBool true]> cfg
  | _ => cfg
  end.

Definition config_after (evs : list event) (cfg : gmap string config_value)
    : gmap string config_value :=
  foldl (λ c ev, step_config ev c) cfg evs.


(** ** Vocabulary of the statements *)

(** Computations that leave the process as they found it. *)
Definition pure {A} (m : M A) : Prop := ∀ w, snd (m w) = w.

(** The string [hello] returns. *)
Definition greeting : string := "Hello from DStudio Python Implementation!".

(** Observations that name the application name the object at address 0. *)
Definition names_the_app (o : obs) : Prop :=
  match o with
  | ObsApp l => l = 0%nat
  | ObsClient c => Flask.client_app c = 0%nat
  | _ => True
  end.

(** What the application answers, in the state the process [p] has
    reached, to the request [r]. *)
Definition respond (files : gmap string Response) (p : process) (r : Request)
    : obs :=
  fst (step (module_name p) (EvRequest r) (snd (run_process files p))).

(** What the application would answer if the name [hello] stood for the
    body [h]. *)
Definition respond_with (h : M return_value) (files : gmap string Response)
    (p : process) (r : Request) : obs :=
  fst (serve h (module_name p) r (snd (run_process files p))).

(** A media type is plain text when it is [text/plain], with or without
    parameters. *)
Definition is_plain_text (ct : string) : bool := String.prefix "text/plain" ct.




(** Some requests. *)
Definition get_root : Request :=
  {| method := "GET"; path := "/"; query_string := EmptyString;
     req_headers := []; req_body := EmptyString |}.









(** ** The answers, case by case

    What the loaded application answers to a request, written out from the
    two rules of its URL map.  It stands in no statement about the program;
    the lemmas relate the dispatch to it once, and the properties of every
    answer are then read off it. *)

(** The automatic reply to OPTIONS. *)
Definition options_response : Response :=
  {| status_code := 200; data := EmptyString;
     content_type := "text/html; charset=utf-8"; allow := http_methods |}.

(** The reply that carries what [hello] returned. *)
Definition greeting_response : Response :=
  {| status_code := 200; data := greeting;
     content_type := "text/html; charset=utf-8"; allow := ∅ |}.

(** The reply of a rule that matched the path: 405 outside the rule's
    methods, the automatic reply to OPTIONS, and otherwise what the view
    gives. *)
Definition rule_answer (m : string) (view : Response) : Response :=
  if bool_decide (m ∈ http_methods) then
    if String.eqb m "OPTIONS" then options_response else view
  else Flask.default_error_response (MethodNotAllowed http_methods).

Definition answer (files : gmap string Response) (r : Request) : Response :=
  Flask.get_wsgi_response r
    (if String.eqb (path r) "/" then rule_answer (method r) greeting_response
     else
       match Flask.match_pattern (PPath "/static/") (path r) with
       | Some _ =>
           rule_answer (method r)
             (default (Flask.default_error_response NotFound)
                (files !! drop_string 8 (path r)))
       | None => Flask.default_error_response NotFound
       end).

(** ** Objects and worlds of the further properties *)

Definition set_testing (a : FlaskObj) : FlaskObj :=
  {| import_name := import_name a;
     config := <["TESTING" := CfgBool true]> (config a);
     url_map := url_map a; view_functions := view_functions a;
     error_handler_spec := error_handler_spec a |}.


(** The object [Flask(name)] builds, and the object it is once the module
    body has decorated [hello]. *)
Definition bare_app (name : string) : FlaskObj :=
  {| import_name := name; config := Flask.default_config;
     url_map := [static_rule];
     view_functions := {[ "static" := fn_send_static_file ]};
     error_handler_spec := ∅ |}.

Definition loaded_app (name : string) : FlaskObj :=
  {| import_name := name; config := Flask.default_config;
     url_map := routes; view_functions := views; error_handler_spec := ∅ |}.

(** [add_url_rule] on the object itself. *)
Definition with_rule (a : FlaskObj) (pat : pattern) (ep : option string)
    (view_func : pyfunc) (ms : option (gset string)) : FlaskObj :=
  let ep := default (Flask.func_name view_func) ep in
  let ms := set_map upper (default {["GET"]} ms) : gset string in
  let auto_options := negb (bool_decide ("OPTIONS" ∈ ms)) in
  let required : gset string := if auto_options then {["OPTIONS"]} else ∅ in
  {| import_name := import_name a; config := config a;
     url_map := url_map a ++ [Flask.make_rule pat ep (ms ∪ required)
                                auto_options];
     view_functions := <[ep := view_func]> (view_functions a);
     error_handler_spec := error_handler_spec a |}.

(** * Lemmas *)

(** ** Loading the module *)

Lemma module_body_fresh name files :
  App.module_body name (fresh_world files)
  = (Ok (the_module name),
     set_sys_modules ∅ (app_world name Flask.default_config files)).
Proof.
  unfold App.module_body, app_world.
  destruct (String.eqb name "__main__"); vm_compute; reflexivity.
Qed.

Lemma boot_world name files :
  boot name files = app_world name Flask.default_config files.
Proof.
  unfold boot, App.import_module.
  unfold mbind, M_bind, bind, get_world. cbn [sys_modules fresh_world].
  rewrite lookup_empty, module_body_fresh. reflexivity.
Qed.

(** Running the file as a script and importing it from the tests are the
    two ways a process gets its world. *)
Lemma boot_script files :
  boot "__main__" files = snd (App.run_script (fresh_world files)).
Proof. reflexivity. Qed.

Lemma boot_tests files :
  boot "src.app" files = snd (Tests.import_app (fresh_world files)).
Proof.
  unfold boot, Tests.import_app, mbind, M_bind, bind.
  destruct (App.import_module "src.app" (fresh_world files)) as [[ns|e] w];
    reflexivity.
Qed.

Lemma import_app_the_app : Tests.import_app = the_app "src.app".
Proof. reflexivity. Qed.

Lemma the_app_world name cfg files :
  the_app name (app_world name cfg files)
  = (Ok 0%nat, app_world name cfg files).
Proof.
  unfold the_app, App.import_module.
  unfold mbind, M_bind, bind, get_world. cbn [sys_modules app_world].
  rewrite lookup_singleton_eq. reflexivity.
Qed.

(** ** Computations that do not write *)

Lemma pure_ret {A} (a : A) : pure (mret a).
Proof. intros w. reflexivity. Qed.

Lemma pure_raise {A} (e : exn) : pure (@raise A e).
Proof. intros w. reflexivity. Qed.

Lemma pure_bind {A B} (m : M A) (k : A → M B) :
  pure m → (∀ a, pure (k a)) → pure (m ≫= k).
Proof.
  intros Hm Hk w. unfold mbind, M_bind, bind.
  specialize (Hm w). destruct (m w) as [[a|e] w']; simpl in Hm; subst.
  - apply Hk.
  - reflexivity.
Qed.

Lemma pure_try_except {A} (m : M A) (h : exn → M A) :
  pure m → (∀ e, pure (h e)) → pure (try_except m h).
Proof.
  intros Hm Hh w. unfold try_except.
  specialize (Hm w). destruct (m w) as [[a|e] w']; simpl in Hm; subst.
  - reflexivity.
  - apply Hh.
Qed.

Lemma pure_get_world : pure get_world.
Proof. intros w. reflexivity. Qed.

Lemma pure_get_app l : pure (get_app l).
Proof. intros w. unfold get_app. destruct (heap w !! l); reflexivity. Qed.

Lemma pure_config_get l key : pure (Flask.config_get l key).
Proof.
  apply pure_bind; [apply pure_get_app|].
  intros a. destruct (config a !! key); [apply pure_ret | apply pure_raise].
Qed.

Lemma pure_send_static_file args : pure (Flask.send_static_file args).
Proof.
  unfold Flask.send_static_file.
  destruct args as [|[k filename] [|]]; try apply pure_raise.
  apply pure_bind; [apply pure_get_world|].
  intros w. destruct (static_folder w !! filename);
    [apply pure_ret | apply pure_raise].
Qed.

Create HintDb pure.
#[local] Hint Resolve pure_ret pure_raise pure_get_world pure_get_app
  pure_config_get pure_send_static_file : pure.

Lemma snd_bind_pure {A B} (m : M A) (k : A → M B) w :
  (∀ a, pure (k a)) → snd ((m ≫= k) w) = snd (m w).
Proof.
  intros Hk. unfold mbind, M_bind, bind.
  destruct (m w) as [[a|e] w']; [apply Hk | reflexivity].
Qed.

Lemma snd_try_except_pure {A} (m : M A) (h : exn → M A) w :
  (∀ e, pure (h e)) → snd (try_except m h w) = snd (m w).
Proof.
  intros Hh. unfold try_except.
  destruct (m w) as [[a|e] w']; [reflexivity | apply Hh].
Qed.

Lemma snd_try_finally {A} (m : M A) (f : M unit) w :
  snd (try_finally m f w) = snd (f (snd (m w))).
Proof.
  unfold try_finally. destruct (m w) as [r w']. simpl.
  destruct (f w') as [[u|e] w'']; reflexivity.
Qed.

Lemma snd_push_context l req w :
  snd (Flask.push_context l req w)
  = set_request_ctx (req :: request_ctx w) w.
Proof.
  unfold Flask.push_context, mbind, M_bind, bind, modify_world, get_app.
  destruct (heap _ !! l); reflexivity.
Qed.

(** The function objects of the program do not change the process when
    called, provided the body of [hello] does not. *)
Lemma pure_call_with h f args : pure h → pure (App.call_with h f args).
Proof.
  intros Hh. destruct f; [|apply pure_send_static_file].
  destruct args; [apply Hh | apply pure_raise].
Qed.

Lemma pure_hello : pure App.hello.
Proof. apply pure_ret. Qed.

Lemma pure_call f args : pure (App.call f args).
Proof. apply pure_call_with, pure_hello. Qed.

Section PureDispatch.
Variable call : pyfunc → list (string * string) → M return_value.
Hypothesis pure_calls : ∀ f args, pure (call f args).

Lemma pure_dispatch_request l req routing :
  pure (Flask.dispatch_request call l req routing).
Proof.
  unfold Flask.dispatch_request.
  destruct routing as [[r args]|e]; [|apply pure_raise].
  apply pure_bind; [apply pure_get_app|]. intros a.
  destruct (_ && _); [apply pure_ret|].
  destruct (view_functions a !! endpoint r); auto with pure.
Qed.

Lemma pure_handle_user_exception l e :
  pure (Flask.handle_user_exception call l e).
Proof.
  unfold Flask.handle_user_exception.
  destruct (Flask.is_http_exception e); [|apply pure_raise].
  apply pure_bind; [apply pure_get_app|]. intros a.
  destruct (error_handler_spec a !! Flask.http_code e); auto with pure.
Qed.

Lemma pure_full_dispatch_request l req routing :
  pure (Flask.full_dispatch_request call l req routing).
Proof.
  apply pure_bind; [|intros; apply pure_ret].
  apply pure_try_except;
    [apply pure_dispatch_request | apply pure_handle_user_exception].
Qed.

Lemma pure_handle_exception l e :
  pure (Flask.handle_exception call l e).
Proof.
  unfold Flask.handle_exception.
  repeat (apply pure_bind; [apply pure_config_get|]; intros ?).
  match goal with |- pure (if ?b then _ else _) => destruct b end;
    [apply pure_raise|].
  apply pure_bind; [apply pure_get_app|]. intros app.
  destruct (error_handler_spec app !! 500); [|apply pure_ret].
  apply pure_bind; [apply pure_calls | intros; apply pure_ret].
Qed.

(** Handling a request leaves the whole process as it was: the request
    context pushed at the start is popped at the end, and nothing else is
    written. *)
Lemma wsgi_app_pure l req : pure (Flask.wsgi_app call l req).
Proof.
  intros w. unfold Flask.wsgi_app.
  rewrite snd_try_finally.
  rewrite snd_bind_pure by (intros; apply pure_ret).
  rewrite snd_try_except_pure by apply pure_handle_exception.
  rewrite snd_bind_pure by (intros; apply pure_full_dispatch_request).
  rewrite snd_push_context.
  unfold Flask.pop_context, modify_world. simpl.
  destruct w; reflexivity.
Qed.
End PureDispatch.

(** The application never changes the process by handling a request. *)
Lemma wsgi_app_world l req w : snd (App.wsgi_app l req w) = w.
Proof. apply wsgi_app_pure, pure_call. Qed.

(** ** Routing and responses of the loaded application *)

Lemma elem_http_methods m :
  m ∈ http_methods ↔ m = "GET" ∨ m = "HEAD" ∨ m = "OPTIONS".
Proof.
  unfold http_methods. rewrite !elem_of_union, !elem_of_singleton. tauto.
Qed.

Lemma http_methods_nonempty : http_methods ≠ ∅.
Proof.
  intros H. assert ("GET" ∈ http_methods) as Hin
    by (apply elem_http_methods; auto).
  rewrite H in Hin. by apply not_elem_of_empty in Hin.
Qed.

(** Routing of the path [/]. *)
Lemma match_root m :
  Flask.match_rules routes m "/" ∅
  = if bool_decide (m ∈ http_methods) then Ok (hello_rule, [])
    else Raise (MethodNotAllowed http_methods).
Proof.
  unfold routes, static_rule, hello_rule.
  cbn [Flask.match_rules Flask.match_pattern rule methods].
  change (String.prefix "/static/" "/") with false.
  change (String.eqb "/" "/") with true. cbn iota.
  case_bool_decide; [reflexivity|].
  rewrite (left_id_L ∅ (∪)).
  rewrite bool_decide_eq_false_2 by apply http_methods_nonempty.
  reflexivity.
Qed.

(** Routing of a path that no rule matches. *)
Lemma match_unrouted m p :
  p ≠ "/" → String.prefix "/static/" p = false →
  Flask.match_rules routes m p ∅ = Raise NotFound.
Proof.
  intros Hp Hs. unfold routes, static_rule, hello_rule.
  cbn [Flask.match_rules Flask.match_pattern rule methods].
  rewrite Hs.
  destruct (String.eqb_spec "/" p) as [Heq|_]; [congruence|].
  reflexivity.
Qed.

(** The steps every request goes through, unfolded. *)
Ltac unfold_wsgi :=
  unfold App.wsgi_app, Flask.wsgi_app, try_finally, try_except,
    Flask.push_context, Flask.full_dispatch_request, Flask.dispatch_request,
    Flask.handle_user_exception, Flask.pop_context;
  unfold mbind, M_bind, bind, modify_world, get_app, mret, M_ret, ret, raise;
  cbn [heap app_world set_request_ctx lookup list_lookup url_map
       view_functions error_handler_spec method path fst snd].

Section Responses.
Variables (call : pyfunc → list (string * string) → M return_value).
Variables (name : string) (cfg : gmap string config_value)
          (files : gmap string Response).

(** A method outside GET, HEAD and OPTIONS on [/]: the default 405,
    whatever the function objects do. *)
Lemma wsgi_root_not_allowed r :
  path r = "/" → method r ∉ http_methods →
  Flask.wsgi_app call 0%nat r (app_world name cfg files)
  = (Ok (Flask.default_error_response (MethodNotAllowed http_methods)),
     app_world name cfg files).
Proof.
  destruct r as [m p q h b]. simpl. intros -> Hm.
  unfold_wsgi. rewrite match_root, bool_decide_eq_false_2 by assumption.
  cbn. rewrite lookup_empty. cbn.
  unfold Flask.get_wsgi_response. cbn.
  destruct (String.eqb_spec m "HEAD") as [->|_]; [|reflexivity].
  exfalso. apply Hm, elem_http_methods. auto.
Qed.

(** A path no rule matches: the default 404, whatever the function
    objects do. *)
Lemma wsgi_unrouted r :
  path r ≠ "/" → String.prefix "/static/" (path r) = false →
  Flask.wsgi_app call 0%nat r (app_world name cfg files)
  = (Ok (Flask.get_wsgi_response r (Flask.default_error_response NotFound)),
     app_world name cfg files).
Proof.
  destruct r as [m p q h b]. simpl. intros Hp Hs.
  unfold_wsgi. rewrite match_unrouted by assumption.
  cbn. rewrite lookup_empty. reflexivity.
Qed.

(** OPTIONS on [/]: the automatic reply, whatever the function objects
    do. *)
Lemma wsgi_root_options r :
  path r = "/" → method r = "OPTIONS" →
  Flask.wsgi_app call 0%nat r (app_world name cfg files)
  = (Ok {| status_code := 200; data := EmptyString;
           content_type := "text/html; charset=utf-8";
           allow := http_methods |},
     app_world name cfg files).
Proof.
  destruct r as [m p q h b]. simpl. intros -> ->.
  vm_compute. reflexivity.
Qed.
End Responses.

(** GET on [/]. *)
Lemma wsgi_root_get name cfg files r :
  method r = "GET" → path r = "/" →
  App.wsgi_app 0%nat r (app_world name cfg files)
  = (Ok {| status_code := 200; data := greeting;
           content_type := "text/html; charset=utf-8"; allow := ∅ |},
     app_world name cfg files).
Proof.
  destruct r as [m p q h b]. simpl. intros -> ->. vm_compute. reflexivity.
Qed.

(** HEAD on [/]. *)
Lemma wsgi_root_head name cfg files r :
  method r = "HEAD" → path r = "/" →
  App.wsgi_app 0%nat r (app_world name cfg files)
  = (Ok {| status_code := 200; data := EmptyString;
           content_type := "text/html; charset=utf-8"; allow := ∅ |},
     app_world name cfg files).
Proof.
  destruct r as [m p q h b]. simpl. intros -> ->. vm_compute. reflexivity.
Qed.

(** ** Processes *)

Lemma bind_the_app {A} name cfg files (k : loc → M A) :
  (the_app name ≫= k) (app_world name cfg files)
  = k 0%nat (app_world name cfg files).
Proof. unfold mbind, M_bind, bind. rewrite the_app_world. reflexivity. Qed.

Lemma client_world name cfg files :
  Tests.client 0%nat (app_world name cfg files)
  = (Ok {| Flask.client_app := 0%nat |},
     app_world name (<["TESTING" := CfgBool true]> cfg) files).
Proof. reflexivity. Qed.

Lemma test_hello_world name cfg files c :
  Flask.client_app c = 0%nat →
  Tests.test_hello c (app_world name cfg files)
  = (Ok tt, app_world name cfg files).
Proof.
  destruct c as [l]. simpl. intros ->.
  unfold Tests.test_hello, Flask.client_get, Flask.client_open.
  unfold mbind, M_bind, bind. cbn [Flask.client_app].
  change (Flask.wsgi_app App.call) with App.wsgi_app.
  rewrite wsgi_root_get by reflexivity.
  vm_compute. reflexivity.
Qed.

Lemma serve_world h name cfg files r :
  pure h →
  snd (serve h name r (app_world name cfg files)) = app_world name cfg files.
Proof.
  intros Hh. unfold serve, observe. rewrite bind_the_app.
  pose proof (wsgi_app_pure (App.call_with h)
                (λ f args, pure_call_with h f args Hh) 0%nat r
                (app_world name cfg files)) as Hw.
  destruct (Flask.wsgi_app _ _ _ _) as [[resp|e] w']; simpl in Hw; subst w';
    reflexivity.
Qed.

(** One event: the application object, the module table, the servers and
    the static folder stay as they are; only the configuration may be
    written, and only by the fixture. *)
Lemma step_world name cfg files ev :
  ∃ o, step name ev (app_world name cfg files)
       = (o, app_world name (step_config ev cfg) files)
     ∧ names_the_app o.
Proof.
  destruct ev as [| | |r]; cbn [step step_config].
  - exists (ObsApp 0%nat). unfold observe. rewrite the_app_world. done.
  - exists (ObsClient {| Flask.client_app := 0%nat |}).
    unfold observe. rewrite bind_the_app, client_world. done.
  - exists ObsPassed. unfold observe. rewrite bind_the_app.
    unfold mbind, M_bind, bind. rewrite client_world.
    rewrite test_hello_world by reflexivity. done.
  - exists (fst (serve App.hello name r (app_world name cfg files))).
    split.
    + rewrite <- (serve_world App.hello name cfg files r pure_hello) at 3.
      apply surjective_pairing.
    + unfold serve, observe.
      destruct (_ ≫= _) as [[resp|e] w']; exact I.
Qed.

Lemma run_events_world name files evs : ∀ cfg,
  ∃ os, run_events name evs (app_world name cfg files)
        = (os, app_world name (config_after evs cfg) files)
      ∧ Forall names_the_app os.
Proof.
  induction evs as [|ev evs IH]; intros cfg.
  - exists []. split; [reflexivity | constructor].
  - destruct (step_world name cfg files ev) as (o & Hstep & Ho).
    destruct (IH (step_config ev cfg)) as (os & Hrun & Hos).
    exists (o :: os). cbn [run_events config_after foldl].
    rewrite Hstep, Hrun. split; [reflexivity | by constructor].
Qed.

(** Every state a process reaches. *)
Lemma run_process_world files p :
  snd (run_process files p)
  = app_world (module_name p)
      (config_after (events_of p) Flask.default_config) files.
Proof.
  unfold run_process. rewrite boot_world.
  destruct (run_events_world (module_name p) files (events_of p)
              Flask.default_config) as (os & -> & _).
  reflexivity.
Qed.

Lemma serve_eq h name cfg files r :
  serve h name r (app_world name cfg files)
  = observe ObsResponse (Flask.wsgi_app (App.call_with h) 0%nat r)
      (app_world name cfg files).
Proof. unfold serve, observe. rewrite bind_the_app. reflexivity. Qed.

Lemma respond_eq files p r :
  respond files p r
  = fst (observe ObsResponse (App.wsgi_app 0%nat r)
           (snd (run_process files p))).
Proof.
  unfold respond. rewrite run_process_world. cbn [step].
  rewrite serve_eq. reflexivity.
Qed.

(** The response to GET on [/], in every state of every process. *)
Lemma respond_get_root files p r :
  method r = "GET" → path r = "/" →
  respond files p r
  = ObsResponse {| status_code := 200; data := greeting;
                   content_type := "text/html; charset=utf-8"; allow := ∅ |}.
Proof.
  intros Hm Hp. rewrite respond_eq, run_process_world. unfold observe.
  rewrite wsgi_root_get by assumption. reflexivity.
Qed.


(** Routing of any path other than [/]. *)
Lemma match_not_root m p :
  p ≠ "/" →
  Flask.match_rules routes m p ∅
  = match Flask.match_pattern (PPath "/static/") p with
    | Some args =>
        if bool_decide (m ∈ http_methods) then Ok (static_rule, args)
        else Raise (MethodNotAllowed http_methods)
    | None => Raise NotFound
    end.
Proof.
  intros Hp. unfold routes, static_rule, hello_rule.
  cbn [Flask.match_rules rule methods].
  assert (Flask.match_pattern (PFixed "/") p = None) as ->.
  { unfold Flask.match_pattern.
    destruct (String.eqb_spec "/" p); [congruence | reflexivity]. }
  destruct (Flask.match_pattern (PPath "/static/") p) as [args|];
    [|reflexivity].
  case_bool_decide; [reflexivity|].
  rewrite (left_id_L ∅ (∪)).
  rewrite bool_decide_eq_false_2 by apply http_methods_nonempty.
  reflexivity.
Qed.



Lemma respond_with_hello files p r :
  respond_with App.hello files p r = respond files p r.
Proof. reflexivity. Qed.

(** ** The configuration *)






(** ** The answers, case by case *)

Lemma match_pattern_path_args prefix p args :
  Flask.match_pattern (PPath prefix) p = Some args →
  args = [("filename", drop_string (String.length prefix) p)].
Proof.
  unfold Flask.match_pattern.
  destruct (String.prefix prefix p); [|discriminate].
  destruct (drop_string (String.length prefix) p) as [|c rest];
    [discriminate|].
  destruct (Ascii.eqb c "/"); [discriminate|]. congruence.
Qed.

Lemma allowed_methods_static p :
  p ≠ "/" → is_Some (Flask.match_pattern (PPath "/static/") p) →
  Flask.allowed_methods routes p = http_methods.
Proof.
  intros Hp [args Hargs]. unfold Flask.allowed_methods.
  rewrite match_not_root, Hargs by assumption. reflexivity.
Qed.

Lemma get_wsgi_response_405 r ms :
  method r ≠ "HEAD" →
  Flask.get_wsgi_response r
    (Flask.default_error_response (MethodNotAllowed ms))
  = Flask.default_error_response (MethodNotAllowed ms).
Proof.
  intros Hm. unfold Flask.get_wsgi_response.
  destruct (String.eqb_spec (method r) "HEAD"); [contradiction | reflexivity].
Qed.

(** The dispatch of the loaded application computes [answer], in every
    configuration, and leaves the world as it was. *)
Lemma wsgi_app_answer name cfg files r :
  App.wsgi_app 0%nat r (app_world name cfg files)
  = (Ok (answer files r), app_world name cfg files).
Proof.
  unfold answer, rule_answer.
  destruct (String.eqb_spec (path r) "/") as [Hp|Hp].
  - case_bool_decide as Hm.
    + apply elem_http_methods in Hm as [Hm|[Hm|Hm]].
      * rewrite wsgi_root_get by assumption.
        destruct r as [m p q h b]; simpl in *; subst. reflexivity.
      * rewrite wsgi_root_head by assumption.
        destruct r as [m p q h b]; simpl in *; subst. reflexivity.
      * unfold App.wsgi_app. rewrite wsgi_root_options by assumption.
        destruct r as [m p q h b]; simpl in *; subst. reflexivity.
    + unfold App.wsgi_app. rewrite wsgi_root_not_allowed by assumption.
      rewrite get_wsgi_response_405; [reflexivity|].
      intros Hhead. apply Hm, elem_http_methods. auto.
  - destruct r as [m p q h b]. cbn [method path] in *.
    unfold_wsgi. rewrite match_not_root by assumption.
    destruct (Flask.match_pattern (PPath "/static/") p) as [args|] eqn:Hargs.
    2:{ cbn. rewrite lookup_empty. reflexivity. }
    case_bool_decide as Hm.
    2:{ cbn. rewrite lookup_empty. reflexivity. }
    cbn [provide_automatic_options endpoint static_rule andb].
    destruct (String.eqb m "OPTIONS") eqn:Hopt.
    { unfold_wsgi. unfold Flask.make_default_options_response.
      rewrite allowed_methods_static by eauto. reflexivity. }
    unfold_wsgi.
    change (views !! "static") with (Some fn_send_static_file).
    unfold App.call. cbn [App.call_with].
    apply match_pattern_path_args in Hargs as ->.
    unfold Flask.send_static_file.
    unfold mbind, M_bind, bind, get_world, mret, M_ret, ret, raise.
    cbn [static_folder set_request_ctx app_world String.length].
    destruct (files !! drop_string 8 p) as [resp|]; [reflexivity|].
    cbn [Flask.is_http_exception heap set_request_ctx app_world lookup
         list_lookup error_handler_spec].
    rewrite !lookup_empty. reflexivity.
Qed.

Lemma respond_answer files p r :
  respond files p r = ObsResponse (answer files r).
Proof.
  rewrite respond_eq, run_process_world. unfold observe.
  rewrite wsgi_app_answer. reflexivity.
Qed.




(** * The claims *)





(** C3, as stated, fails: the content type of the response to GET on [/]
    is not plain text. *)
Lemma get_root_content_type_not_plain :
  ∃ resp, respond ∅ (TestSession []) get_root = ObsResponse resp
    ∧ content_type resp = "text/html; charset=utf-8"
    ∧ is_plain_text (content_type resp) = false.
Proof. eexists. split; [vm_compute; reflexivity|]. split; reflexivity. Qed.

(** C3, amended: for every GET request to [/], the content type of the
    response is the framework's default for a string return value, and
    that default is HTML text in UTF-8, [text/html; charset=utf-8]. *)
Theorem get_root_content_type_is_default files p r :
  method r = "GET" → path r = "/" →
  ∃ resp, respond files p r = ObsResponse resp
    ∧ content_type resp
      = Flask.get_content_type Flask.default_mimetype "utf-8"
    ∧ content_type resp = content_type (Flask.make_response (RvStr (data resp)))
    ∧ content_type resp = "text/html; charset=utf-8".
Proof.
  intros Hm Hp. eexists. split; [apply respond_get_root; assumption|].
  repeat split; reflexivity.
Qed.

Lemma get_root_content_type_is_default_witness :
  method get_root = "GET" ∧ path get_root = "/" ∧
  ∃ resp, respond ∅ (TestSession []) get_root = ObsResponse resp
    ∧ content_type resp
      = Flask.get_content_type Flask.default_mimetype "utf-8"
    ∧ content_type resp = content_type (Flask.make_response (RvStr (data resp)))
    ∧ content_type resp = "text/html; charset=utf-8".
Proof.
  split; [reflexivity|]. split; [reflexivity|].
  apply (get_root_content_type_is_default ∅ (TestSession []) get_root);
    reflexivity.
Defined.






(** C6: the development server is started, on host [0.0.0.0] (all
    interfaces) and port 8080, exactly when the module body runs with
    [__name__] equal to [__main__]; a process that imports the module never
    has a server started, whatever happens in it, and a process that runs
    the file as a script has that one server, serving the module's
    application object. *)
Theorem server_started_iff_main files name :
  served (snd (App.module_body name (fresh_world files)))
  = (if String.eqb name "__main__"
     then [(0%nat, "0.0.0.0", 8080)] else [])
  ∧ (served (boot name files) ≠ [] ↔ name = "__main__")
  ∧ (∀ evs, served (snd (run_process files (TestSession evs))) = [])
  ∧ (∀ reqs, served (snd (run_process files (Script reqs)))
             = [(0%nat, "0.0.0.0", 8080)])
  ∧ fst (App.module_body name (fresh_world files)) = Ok (the_module name).
Proof.
  split; [|split; [|split; [|split]]].
  - rewrite module_body_fresh. reflexivity.
  - rewrite boot_world. cbn [served app_world].
    destruct (String.eqb_spec name "__main__") as [->|Hne].
    + split; [reflexivity | discriminate].
    + split; [intros []; reflexivity | contradiction].
  - intros evs. rewrite run_process_world. reflexivity.
  - intros reqs. rewrite run_process_world. reflexivity.
  - rewrite module_body_fresh. reflexivity.
Qed.

(** C7: handling a GET request for [/] has no side effects: the process
    after the request is the process before it (application object,
    configuration, module table, servers, static files), the request
    context the framework pushed is gone, so nothing refers to the request
    or the response any more, and the handler itself leaves any state
    unchanged and returns the same value in every state. *)
Theorem get_root_no_side_effects files p r :
  method r = "GET" → path r = "/" →
  snd (step (module_name p) (EvRequest r) (snd (run_process files p)))
  = snd (run_process files p)
  ∧ request_ctx
      (snd (step (module_name p) (EvRequest r) (snd (run_process files p))))
    = []
  ∧ (∀ l w, snd (App.wsgi_app l r w) = w)
  ∧ (∀ w, App.hello w
          = (Ok (RvStr "Hello from DStudio Python Implementation!"), w)).
Proof.
  intros Hm Hp.
  assert (snd (step (module_name p) (EvRequest r) (snd (run_process files p)))
          = snd (run_process files p)) as Hw.
  { rewrite run_process_world. cbn [step].
    apply serve_world, pure_hello. }
  split; [exact Hw|]. split; [|split].
  - rewrite Hw, run_process_world. reflexivity.
  - intros l w. apply wsgi_app_world.
  - intros w. reflexivity.
Qed.

Lemma get_root_no_side_effects_witness :
  snd (step "src.app" (EvRequest get_root)
         (snd (run_process ∅ (TestSession [EvFixture]))))
  = snd (run_process ∅ (TestSession [EvFixture])).
Proof.
  apply (get_root_no_side_effects ∅ (TestSession [EvFixture]) get_root);
    reflexivity.
Defined.

(** C8: no application object exists before the module is loaded, loading
    the module constructs exactly one, and at every later point of the
    process that object is still the only one: the module's name [app],
    every importer and every test client refer to it, and its URL map and
    view functions are those set up at load time. *)
Theorem one_application_object files p :
  heap (fresh_world files) = []
  ∧ length (heap (boot (module_name p) files)) = 1%nat
  ∧ length (heap (snd (run_process files p))) = 1%nat
  ∧ (∃ ns, sys_modules (snd (run_process files p)) !! module_name p = Some ns
           ∧ g_app ns = 0%nat)
  ∧ Forall names_the_app (fst (run_process files p))
  ∧ (∃ a0 a, heap (boot (module_name p) files) !! 0%nat = Some a0
       ∧ heap (snd (run_process files p)) !! 0%nat = Some a
       ∧ import_name a = import_name a0
       ∧ url_map a = url_map a0
       ∧ view_functions a = view_functions a0
       ∧ error_handler_spec a = error_handler_spec a0).
Proof.
  rewrite run_process_world, boot_world.
  split; [reflexivity|]. split; [reflexivity|]. split; [reflexivity|].
  split; [|split].
  - exists (the_module (module_name p)). split; [|reflexivity].
    cbn [sys_modules app_world]. apply lookup_singleton_eq.
  - unfold run_process. rewrite boot_world.
    destruct (run_events_world (module_name p) files (events_of p)
                Flask.default_config) as (os & -> & Hos).
    exact Hos.
  - do 2 eexists. repeat split; reflexivity.
Qed.






(** * Further properties of the program *)

(** ** Every answer of the loaded application *)





(** X3: the answer to a request does not depend on what the process did
    before: under which name the module was loaded (script or import), how
    many fixtures, tests, imports and requests came earlier, and whether
    [TESTING] is set.  Only the request and the static folder matter. *)
Theorem answer_independent_of_history files p p' r :
  respond files p r = respond files p' r.
Proof. rewrite !respond_answer. reflexivity. Qed.

(** ** The fixture and the test, in any world *)

(** What the fixture does to a world. *)
Lemma client_any_world l w :
  Tests.client l w
  = match heap w !! l with
    | Some a => (Ok {| Flask.client_app := l |},
                 set_heap (<[l := set_testing a]> (heap w)) w)
    | None => (Raise ReferenceError, w)
    end.
Proof.
  unfold Tests.client, Flask.config_set, update_app, Flask.test_client.
  unfold mbind, M_bind, bind, get_app, modify_world, mret, M_ret, ret.
  destruct (heap w !! l); reflexivity.
Qed.

(** X4: the fixture is idempotent on the process: set up a second time on
    the same application, in any world, it leaves the application objects
    and their configuration, the loaded modules, the servers, the request
    contexts and the static folder as the first set-up left them. *)
Theorem client_idempotent l w :
  snd (Tests.client l (snd (Tests.client l w))) = snd (Tests.client l w).
Proof.
  rewrite (client_any_world l w).
  destruct (heap w !! l) as [a|] eqn:Hl; cbn [snd].
  - rewrite client_any_world. cbn [heap set_heap].
    rewrite list_lookup_insert_eq by (by eapply lookup_lt_Some).
    rewrite list_insert_insert_eq.
    unfold set_testing at 1. cbn [config set_testing import_name url_map
      view_functions error_handler_spec].
    rewrite insert_insert_eq. reflexivity.
  - rewrite client_any_world, Hl. reflexivity.
Qed.

(** X5: the fixture writes one entry of one object.  Set up on an existing
    application, in any world, it returns a client of that application,
    [TESTING] reads [True] afterwards, every other configuration entry reads
    as before, the URL map, the view functions and the error handlers of
    the application are untouched, and so are all other objects, the loaded
    modules, the servers, the request contexts and the static folder. *)
Theorem client_writes_testing_only l w a :
  heap w !! l = Some a →
  fst (Tests.client l w) = Ok {| Flask.client_app := l |}
  ∧ fst (Flask.config_get l "TESTING" (snd (Tests.client l w)))
    = Ok (CfgBool true)
  ∧ (∀ k, k ≠ "TESTING" →
       fst (Flask.config_get l k (snd (Tests.client l w)))
       = fst (Flask.config_get l k w))
  ∧ (∃ a', heap (snd (Tests.client l w)) !! l = Some a'
       ∧ import_name a' = import_name a ∧ url_map a' = url_map a
       ∧ view_functions a' = view_functions a
       ∧ error_handler_spec a' = error_handler_spec a)
  ∧ (∀ l', l' ≠ l → heap (snd (Tests.client l w)) !! l' = heap w !! l')
  ∧ length (heap (snd (Tests.client l w))) = length (heap w)
  ∧ sys_modules (snd (Tests.client l w)) = sys_modules w
  ∧ served (snd (Tests.client l w)) = served w
  ∧ request_ctx (snd (Tests.client l w)) = request_ctx w
  ∧ static_folder (snd (Tests.client l w)) = static_folder w.
Proof.
  intros Hl. rewrite client_any_world, Hl. cbn [fst snd].
  assert (heap (set_heap (<[l:=set_testing a]> (heap w)) w) !! l
          = Some (set_testing a)) as Hl'.
  { cbn [heap set_heap]. apply list_lookup_insert_eq.
    by eapply lookup_lt_Some. }
  split; [reflexivity|]. split; [|split; [|split; [|split]]].
  - unfold Flask.config_get, mbind, M_bind, bind, get_app. rewrite Hl'.
    cbn [config set_testing]. rewrite lookup_insert_eq. reflexivity.
  - intros k Hk.
    unfold Flask.config_get, mbind, M_bind, bind, get_app. rewrite Hl', Hl.
    cbn [config set_testing]. rewrite lookup_insert_ne by congruence.
    destruct (config a !! k); reflexivity.
  - exists (set_testing a). split; [exact Hl'|]. repeat split; reflexivity.
  - intros l' Hne. cbn [heap set_heap].
    apply list_lookup_insert_ne. congruence.
  - cbn [heap set_heap]. rewrite length_insert.
    repeat split; reflexivity.
Qed.

Lemma client_writes_testing_only_witness :
  fst (Tests.client 0%nat (boot "src.app" ∅))
  = Ok {| Flask.client_app := 0%nat |}.
Proof.
  eapply (client_writes_testing_only 0%nat (boot "src.app" ∅)).
  rewrite boot_world. reflexivity.
Defined.

Lemma pure_assert b : pure (Tests.assert b).
Proof. destruct b; [apply pure_ret | apply pure_raise]. Qed.

Lemma pure_test_hello c : pure (Tests.test_hello c).
Proof.
  apply pure_bind.
  - apply wsgi_app_pure, pure_call.
  - intros response. apply pure_bind; [apply pure_assert|].
    intros _. apply pure_assert.
Qed.

(** X6: the test writes nothing of the application: run with any client in
    any world, whether it passes, fails or ends in another exception, it
    leaves the application objects and their configuration, the loaded
    modules, the servers and the static folder as it found them.  (The
    request context, which a client entered by [with] keeps after its
    request, is the framework's and is not spoken of.) *)
Theorem test_hello_no_side_effects c w :
  heap (snd (Tests.test_hello c w)) = heap w
  ∧ sys_modules (snd (Tests.test_hello c w)) = sys_modules w
  ∧ served (snd (Tests.test_hello c w)) = served w
  ∧ static_folder (snd (Tests.test_hello c w)) = static_folder w.
Proof. rewrite pure_test_hello. repeat split; reflexivity. Qed.




(** X8: the test of the repository passes at every point of a test
    session: whatever imports, fixtures, tests and requests came before, the
    fixture followed by [test_hello] ends without an exception. *)
Theorem test_hello_passes files evs :
  fst (step "src.app" EvTestHello
         (snd (run_process files (TestSession evs)))) = ObsPassed.
Proof.
  rewrite run_process_world.
  destruct (step_world "src.app"
              (config_after evs Flask.default_config) files EvTestHello)
    as (o & Hstep & _).
  cbn [module_name events_of]. rewrite Hstep. cbn [fst].
  revert Hstep. cbn [step]. unfold observe. rewrite bind_the_app.
  unfold mbind, M_bind, bind. rewrite client_world.
  rewrite test_hello_world by reflexivity. congruence.
Qed.

(** ** The module body, in any world *)

Lemma get_app_last h a w :
  heap w = (h ++ [a])%list → get_app (length h) w = (Ok a, w).
Proof.
  intros Hw. unfold get_app. rewrite Hw, list_lookup_middle by reflexivity.
  reflexivity.
Qed.

Lemma update_app_last h a f w :
  heap w = (h ++ [a])%list →
  update_app (length h) f w = (Ok tt, set_heap (h ++ [f a]) w).
Proof.
  intros Hw. unfold update_app, mbind, M_bind, bind.
  rewrite (get_app_last h a w Hw). unfold modify_world. rewrite Hw.
  rewrite insert_app_r_alt, Nat.sub_diag by reflexivity. reflexivity.
Qed.

(** Registering a rule for a free endpoint on the newest object. *)
Lemma add_url_rule_last h a w pat ep view_func ms :
  heap w = (h ++ [a])%list →
  view_functions a !! default (Flask.func_name view_func) ep = None →
  Flask.add_url_rule (length h) pat ep view_func ms w
  = (Ok tt, set_heap (h ++ [with_rule a pat ep view_func ms]) w).
Proof.
  intros Hw Hfree. unfold Flask.add_url_rule. cbv zeta.
  unfold mbind, M_bind, bind.
  rewrite (update_app_last h a _ w Hw).
  erewrite (get_app_last h _ (set_heap _ w)) by reflexivity.
  cbn [view_functions]. rewrite Hfree.
  unfold mret, M_ret, ret.
  erewrite (update_app_last h) by reflexivity.
  reflexivity.
Qed.

Lemma Flask_any_world name w :
  Flask.Flask name w
  = (Ok (length (heap w)), set_heap (heap w ++ [bare_app name]) w).
Proof.
  unfold Flask.Flask, mbind, M_bind, bind, get_world, modify_world.
  rewrite (add_url_rule_last (heap w)
             {| import_name := name; config := Flask.default_config;
                url_map := []; view_functions := ∅;
                error_handler_spec := ∅ |}) by reflexivity.
  reflexivity.
Qed.

Lemma route_hello_any_world name h w :
  heap w = (h ++ [bare_app name])%list →
  Flask.route (length h) "/" fn_hello w
  = (Ok fn_hello, set_heap (h ++ [loaded_app name]) w).
Proof.
  intros Hw. unfold Flask.route, mbind, M_bind, bind.
  rewrite (add_url_rule_last h (bare_app name)) by done.
  reflexivity.
Qed.

(** The module body in any world. *)
Lemma module_body_any_world name w :
  App.module_body name w
  = (Ok {| g_name := name; g_app := length (heap w); g_hello := fn_hello |},
     set_served
       (served w ++ if String.eqb name "__main__"
                    then [(length (heap w), "0.0.0.0", 8080)] else [])
       (set_heap (heap w ++ [loaded_app name]) w)).
Proof.
  unfold App.module_body, mbind, M_bind, bind.
  rewrite Flask_any_world.
  rewrite (route_hello_any_world name (heap w)) by reflexivity.
  destruct (String.eqb name "__main__").
  - reflexivity.
  - unfold mret, M_ret, ret. rewrite app_nil_r.
    destruct w; reflexivity.
Qed.

(** X9: the module body constructs exactly one object and touches no other.
    Executed under any name in any world, it succeeds; the heap grows by one
    object, the application with the static route and the route of [hello],
    bound to the module's name [app]; every object that existed is as it
    was; the loaded modules, the request contexts and the static folder are
    as they were; and one server on [0.0.0.0:8080], serving the new object,
    is added when the name is [__main__], none otherwise. *)
Theorem module_body_adds_one_object name w :
  fst (App.module_body name w)
  = Ok {| g_name := name; g_app := length (heap w); g_hello := fn_hello |}
  ∧ length (heap (snd (App.module_body name w))) = S (length (heap w))
  ∧ (∀ l a, heap w !! l = Some a →
            heap (snd (App.module_body name w)) !! l = Some a)
  ∧ heap (snd (App.module_body name w)) !! length (heap w)
    = Some (loaded_app name)
  ∧ served (snd (App.module_body name w))
    = (served w ++ if String.eqb name "__main__"
                   then [(length (heap w), "0.0.0.0", 8080)] else [])%list
  ∧ sys_modules (snd (App.module_body name w)) = sys_modules w
  ∧ request_ctx (snd (App.module_body name w)) = request_ctx w
  ∧ static_folder (snd (App.module_body name w)) = static_folder w.
Proof.
  rewrite module_body_any_world. cbn [fst snd heap set_served set_heap].
  split; [reflexivity|]. split; [|split; [|split]].
  - rewrite length_app. cbn. lia.
  - intros l a Hl. by apply lookup_app_l_Some.
  - by apply list_lookup_middle.
  - repeat split; reflexivity.
Qed.

Lemma import_any_world name w :
  sys_modules w !! name = None →
  App.import_module name w
  = (Ok {| g_name := name; g_app := length (heap w); g_hello := fn_hello |},
     set_sys_modules
       (<[name := {| g_name := name; g_app := length (heap w);
                     g_hello := fn_hello |}]> (sys_modules w))
       (snd (App.module_body name w))).
Proof.
  intros Hnew. unfold App.import_module, mbind, M_bind, bind, get_world.
  rewrite Hnew, module_body_any_world. reflexivity.
Qed.

(** X10: one object per name.  When the module is loaded under two
    different names in one process (as [__main__] by running the file and as
    [src.app] by an import, say), both loads succeed and each constructs an
    application object of its own: the two names [app] refer to different
    objects, and the fixture set up on one leaves [TESTING] false on the
    other. *)
Theorem each_name_loads_its_own_object n1 n2 w :
  n1 ≠ n2 → sys_modules w !! n1 = None → sys_modules w !! n2 = None →
  ∃ ns1 ns2 w1 w2,
    App.import_module n1 w = (Ok ns1, w1)
    ∧ App.import_module n2 w1 = (Ok ns2, w2)
    ∧ g_app ns1 ≠ g_app ns2
    ∧ length (heap w2) = S (S (length (heap w)))
    ∧ heap w2 !! g_app ns1 = Some (loaded_app n1)
    ∧ heap w2 !! g_app ns2 = Some (loaded_app n2)
    ∧ fst (Flask.config_get (g_app ns1) "TESTING"
             (snd (Tests.client (g_app ns2) w2)))
      = Ok (CfgBool false).
Proof.
  intros Hne H1 H2.
  rewrite (import_any_world n1 w H1).
  do 4 eexists. split; [reflexivity|].
  rewrite module_body_any_world. cbn [snd].
  rewrite import_any_world
    by (cbn [sys_modules set_sys_modules]; by rewrite lookup_insert_ne).
  rewrite module_body_any_world.
  cbn [snd heap set_sys_modules set_served set_heap g_app].
  split; [reflexivity|].
  cbn [snd heap set_sys_modules set_served set_heap g_app].
  rewrite !length_app. cbn [length].
  assert (((heap w ++ [loaded_app n1]) ++ [loaded_app n2])%list
            !! length (heap w) = Some (loaded_app n1)) as Hl1.
  { apply lookup_app_l_Some. by apply list_lookup_middle. }
  assert (((heap w ++ [loaded_app n1]) ++ [loaded_app n2])%list
            !! (length (heap w) + 1)%nat = Some (loaded_app n2)) as Hl2.
  { apply list_lookup_middle. rewrite length_app. reflexivity. }
  split; [lia|]. split; [lia|]. split; [exact Hl1|]. split; [exact Hl2|].
  rewrite client_any_world.
  cbn [heap set_sys_modules set_served set_heap]. unfold loc.
  rewrite Hl2. cbn [snd].
  unfold Flask.config_get, mbind, M_bind, bind, get_app.
  cbn [heap set_heap]. unfold loc.
  rewrite list_lookup_insert_ne by lia. rewrite Hl1. reflexivity.
Qed.

Lemma each_name_loads_its_own_object_witness :
  ∃ ns1 ns2 w1 w2,
    App.import_module "__main__" (fresh_world ∅) = (Ok ns1, w1)
    ∧ App.import_module "src.app" w1 = (Ok ns2, w2)
    ∧ g_app ns1 ≠ g_app ns2
    ∧ length (heap w2) = S (S (length (heap (fresh_world ∅))))
    ∧ heap w2 !! g_app ns1 = Some (loaded_app "__main__")
    ∧ heap w2 !! g_app ns2 = Some (loaded_app "src.app")
    ∧ fst (Flask.config_get (g_app ns1) "TESTING"
             (snd (Tests.client (g_app ns2) w2)))
      = Ok (CfgBool false).
Proof.
  apply (each_name_loads_its_own_object "__main__" "src.app" (fresh_world ∅)).
  - discriminate.
  - reflexivity.
  - reflexivity.
Defined.
